(** * WebHL_SQCT: page routes and startup seeding of [app.py]

    A shallow embedding of the FastAPI application module [src/app.py]:
    the seven page routes and the [startup_event] hook that seeds the
    department table and the administrative account.

    The module imports four collaborators whose code is not part of the
    module itself ([app.models], [app.database], [app.auth],
    [app.dependencies]).  Their data declarations are modelled below from
    the specification; the password hasher is a parameter of
    [startup_event]; the identity resolver, the role authorizer and login
    are modelled in their own modules further down. *)

From Stdlib Require Import String Ascii List Bool ZArith Lia.
Import ListNotations.
Local Open Scope string_scope.
Local Open Scope list_scope.

(** ** Data model *)

(** Modelled from the spec: [models.UserRole] is not in [app.py]; the
    specification names the roles ADMIN and regular USER. *)
Inductive UserRole : Type := ADMIN | USER.

Definition UserRole_eqb (a b : UserRole) : bool :=
  match a, b with
  | ADMIN, ADMIN | USER, USER => true
  | _, _ => false
  end.

(** Modelled from the spec: [models.User] is declared outside [app.py].
    The fields are the keyword arguments that [startup_event] passes to
    the constructor. *)
Record User : Type := mkUser {
  username : string;
  email : string;
  full_name : string;
  hashed_password : string;
  role : UserRole
}.

(** Modelled from the spec: [models.Department], with the two keys of the
    dictionaries in [departments_data]. *)
Record Department : Type := mkDepartment {
  code : string;
  name : string
}.

(** Modelled from the spec: the Session Token, "a signed, self-contained
    credential encoding the subject's identifier and an expiry instant".
    What a client sends is either such a triple or text that does not
    decode to one. *)
Inductive Token : Type :=
| Garbled (raw : string)
| Signed (subject : string) (expiry : Z) (signature : string).

(** The part of a Starlette [Request] the application looks at: the path
    and the token found on the single recognised channel, if any. *)
Record Request : Type := mkRequest {
  url_path : string;
  credential : option Token
}.

(** A value stored in a template context dictionary. *)
Inductive CtxValue : Type :=
| CtxRequest (r : Request)
| CtxUser (u : option User)
| CtxDepartments (ds : list Department).

Inductive Response : Type :=
| RedirectResponse (url : string) (status_code : nat)
| TemplateResponse (template : string) (context : list (string * CtxValue))
| ErrorResponse (status_code : nat).   (* produced by the guards, never by app.py itself *)

(** An object handed to [db.add]. *)
Inductive Row : Type :=
| DepartmentRow (d : Department)
| UserRow (u : User).

(** ** The world: database tables, the open session, observable effects *)

Inductive Event : Type :=
| EvCountDepartments                 (* db.query(models.Department).count() *)
| EvAllDepartments                   (* db.query(models.Department).all()   *)
| EvFirstUser (wanted : string)      (* ...filter(username == wanted).first() *)
| EvInsert (r : Row)                 (* a row written by a flush *)
| EvCommit
| EvRender (template : string)       (* templates.TemplateResponse(...) *)
| EvPrint (msg : string)
| EvClose.

Record World : Type := mkWorld {
  departments : list Department;     (* committed rows, in insertion order *)
  users : list User;
  pending : list Row;                (* objects added to the session, not yet flushed *)
  trace : list Event                 (* effects so far, oldest first *)
}.

Inductive Exn : Type :=
| IntegrityError (key : string).

Inductive Result (A : Type) : Type :=
| Ok (a : A)
| Raise (e : Exn).
Arguments Ok {A} a.
Arguments Raise {A} e.

(** Computations that read and write the world and may raise. *)
Definition M (A : Type) : Type := World -> Result A * World.

Definition ret {A} (a : A) : M A := fun w => (Ok a, w).

Definition bind {A B} (m : M A) (k : A -> M B) : M B :=
  fun w =>
    match m w with
    | (Ok a, w') => k a w'
    | (Raise e, w') => (Raise e, w')
    end.

Declare Scope py_scope.
Delimit Scope py_scope with py.
Notation "x <- m ;; k" := (bind m (fun x => k))
  (at level 61, m at next level, right associativity) : py_scope.
Notation "m ;; k" := (bind m (fun _ => k))
  (at level 61, right associativity) : py_scope.
Local Open Scope py_scope.

Definition exec {A} (m : M A) (w : World) : World := snd (m w).
Definition value {A} (m : M A) (w : World) : Result A := fst (m w).

Definition emit (e : Event) : M unit :=
  fun w => (Ok tt, mkWorld (departments w) (users w) (pending w) (trace w ++ [e])).

Definition print (msg : string) : M unit := emit (EvPrint msg).

(** ** Session operations used by [app.py] *)

(** [next(get_db())]: a fresh session, with nothing pending. *)
Definition get_db : M unit :=
  fun w => (Ok tt, mkWorld (departments w) (users w) [] (trace w)).

(** [db.add(obj)] *)
Definition db_add (r : Row) : M unit :=
  fun w => (Ok tt, mkWorld (departments w) (users w) (pending w ++ [r]) (trace w)).

(** [db.query(models.Department).count()] *)
Definition count_departments : M nat :=
  emit EvCountDepartments ;;
  fun w => (Ok (length (departments w)), w).

(** [db.query(models.Department).all()] *)
Definition all_departments : M (list Department) :=
  emit EvAllDepartments ;;
  fun w => (Ok (departments w), w).

(** [db.query(models.User).filter(models.User.username == wanted).first()] *)
Definition first_user_by_username (wanted : string) : M (option User) :=
  emit (EvFirstUser wanted) ;;
  fun w => (Ok (find (fun u => String.eqb (username u) wanted) (users w)), w).

(** Modelled from the spec: the uniqueness constraints of the tables are
    declared in [app.models]; the specification makes the user identifier
    and the department code unique, and names no other constraint.  A row
    whose key is already in its table is refused. *)
Definition insert_row (r : Row) (tabs : list Department * list User)
  : Exn + (list Department * list User) :=
  let (ds, us) := tabs in
  match r with
  | DepartmentRow d =>
      if existsb (fun d' => String.eqb (code d') (code d)) ds
      then inl (IntegrityError (code d))
      else inr (ds ++ [d], us)
  | UserRow u =>
      if existsb (fun u' => String.eqb (username u') (username u)) us
      then inl (IntegrityError (username u))
      else inr (ds, us ++ [u])
  end.

Fixpoint flush (rows : list Row) (tabs : list Department * list User)
  : Exn + (list Department * list User) :=
  match rows with
  | [] => inr tabs
  | r :: rows' =>
      match insert_row r tabs with
      | inl e => inl e
      | inr tabs' => flush rows' tabs'
      end
  end.

(** [db.commit()]: the pending objects are written in the order they were
    added; a refused row aborts the transaction and leaves the tables as
    they were. *)
Definition db_commit : M unit :=
  fun w =>
    match flush (pending w) (departments w, users w) with
    | inl e => (Raise e, mkWorld (departments w) (users w) [] (trace w))
    | inr (ds, us) =>
        (Ok tt, mkWorld ds us [] (trace w ++ map EvInsert (pending w) ++ [EvCommit]))
    end.

(** [db.close()] *)
Definition db_close : M unit :=
  fun w => (Ok tt, mkWorld (departments w) (users w) [] (trace w ++ [EvClose])).

(** [for x in xs: body(x)] *)
Fixpoint for_each {A} (xs : list A) (body : A -> M unit) : M unit :=
  match xs with
  | [] => ret tt
  | x :: xs' => body x ;; for_each xs' body
  end.

(** ** [startup_event] *)

Definition departments_data : list (string * string) :=
  [ ("K1", "Khoa Triết học Mác - Lênin");
    ("K2", "Khoa Lịch sử Đảng Cộng sản Việt Nam");
    ("K3", "Khoa Công tác Đảng, Công tác Chính trị");
    ("K4", "Khoa Chiến thuật");
    ("K5", "Khoa Văn hóa - Ngoại ngữ");
    ("K6", "Khoa Kinh tế chính trị Mác - Lênin");
    ("K7", "Khoa Chủ nghĩa xã hội khoa học");
    ("K8", "Khoa Tâm lý học quân sự");
    ("K9", "Khoa Bắn súng");
    ("K10", "Khoa Quân sự chung");
    ("K11", "Khoa Giáo dục thể chất");
    ("K12", "Khoa Sư phạm quân sự");
    ("K13", "Khoa Tư tưởng Hồ Chí Minh");
    ("K14", "Khoa Nhà nước & Pháp luật") ].

(** The object built from one dictionary of [departments_data] by the
    [models.Department] constructor. *)
Definition Department_of (dept_data : string * string) : Department :=
  mkDepartment (fst dept_data) (snd dept_data).

(** Python truth value of the result of [.first()] and of the [user]
    dependency: [None] is false, a mapped object is true. *)
Definition truthy {A} (o : option A) : bool :=
  match o with Some _ => true | None => false end.

Section Startup.

(** [app.auth.get_password_hash], imported inside [startup_event]; its
    code is not in [app.py], so it is a parameter here. *)
Variable get_password_hash : string -> string.

(** The object built by [models.User(username="admin", ...)]. *)
Definition admin : User :=
  mkUser "admin" "admin@sqct.edu.vn" "Quản trị viên"
         (get_password_hash "admin123") ADMIN.

Definition startup_event : M unit :=
  get_db ;;
  existing_depts <- count_departments ;;
  (if Nat.eqb existing_depts 0 then
     for_each departments_data
       (fun dept_data => db_add (DepartmentRow (Department_of dept_data))) ;;
     db_commit ;;
     print "✅ Đã khởi tạo 14 khoa thành công"
   else ret tt) ;;
  admin_user <- first_user_by_username "admin" ;;
  (if negb (truthy admin_user) then
     db_add (UserRow admin) ;;
     db_commit ;;
     print "✅ Đã tạo tài khoản admin (username: admin, password: admin123)"
   else ret tt) ;;
  db_close.

End Startup.

(** ** Page routes *)

(** [templates.TemplateResponse(name, context)] *)
Definition template_response (template : string) (context : list (string * CtxValue))
  : M Response :=
  emit (EvRender template) ;;
  ret (TemplateResponse template context).

(** Every handler receives the request and the value of
    [Depends(get_optional_user)]: [None] or a [User].  The session of
    [Depends(get_db)] lives in the world. *)
Definition Handler : Type := Request -> option User -> M Response.

Definition index : Handler :=
  fun request user =>
    if negb (truthy user) then ret (RedirectResponse "/login" 302)
    else ret (RedirectResponse "/dashboard" 302).

Definition materials_page : Handler :=
  fun request user =>
    if negb (truthy user) then ret (RedirectResponse "/login" 302)
    else
      departments <- all_departments ;;
      template_response "index.html"
        [ ("request", CtxRequest request);
          ("user", CtxUser user);
          ("departments", CtxDepartments departments) ].

Definition login_page : Handler :=
  fun request user =>
    if truthy user then ret (RedirectResponse "/dashboard" 302)
    else template_response "login.html" [ ("request", CtxRequest request) ].

Definition register_page : Handler :=
  fun request user =>
    if truthy user then ret (RedirectResponse "/dashboard" 302)
    else template_response "register.html" [ ("request", CtxRequest request) ].

Definition detail_page : Handler :=
  fun request user =>
    if negb (truthy user) then ret (RedirectResponse "/login" 302)
    else
      departments <- all_departments ;;
      template_response "detail.html"
        [ ("request", CtxRequest request);
          ("user", CtxUser user);
          ("departments", CtxDepartments departments) ].

Definition dashboard_page : Handler :=
  fun request user =>
    if negb (truthy user) then ret (RedirectResponse "/login" 302)
    else
      departments <- all_departments ;;
      template_response "dashboard.html"
        [ ("request", CtxRequest request);
          ("user", CtxUser user);
          ("departments", CtxDepartments departments) ].

Definition statistics_page : Handler :=
  fun request user =>
    if negb (truthy user) then ret (RedirectResponse "/login" 302)
    else
      departments <- all_departments ;;
      template_response "statistics.html"
        [ ("request", CtxRequest request);
          ("user", CtxUser user);
          ("departments", CtxDepartments departments) ].

(** The [@app.get(path)] decorators, in source order. *)
Definition routes : list (string * Handler) :=
  [ ("/", index);
    ("/materials", materials_page);
    ("/login", login_page);
    ("/register", register_page);
    ("/detail", detail_page);
    ("/dashboard", dashboard_page);
    ("/statistics", statistics_page) ].

Fixpoint route_for (path : string) (table : list (string * Handler)) : option Handler :=
  match table with
  | [] => None
  | (p, h) :: table' => if String.eqb p path then Some h else route_for path table'
  end.

(** ** Password Hasher *)

Module PasswordHasher.

(** [split_at c s]: the text before the first [c] and the text after it. *)
Fixpoint split_at (c : ascii) (s : string) : option (string * string) :=
  match s with
  | EmptyString => None
  | String a rest =>
      if Ascii.eqb a c then Some (EmptyString, rest)
      else match split_at c rest with
           | Some (before, after) => Some (String a before, after)
           | None => None
           end
  end.

Fixpoint free_of (c : ascii) (s : string) : bool :=
  match s with
  | EmptyString => true
  | String a rest => negb (Ascii.eqb a c) && free_of c rest
  end.

Definition sep : ascii := "$"%char.

Section Hasher.

(** The one-way function itself, from salt and plaintext to digest
    body, and the name the digest announces it under. *)
Variable kdf : string -> string -> string.
Variable algorithm : string.

(** Modelled from the spec: [app.auth.get_password_hash] is not in
    [app.py].  "hash(plaintext) -> digest produces a salted,
    non-reversible digest"; "digest format must self-describe its
    algorithm/salt".  The digest text is the algorithm name, the salt
    and the digest body, each introduced by the separator.  The salt
    drawn for the call is an argument. *)
Definition hash (salt plaintext : string) : string :=
  String sep (algorithm ++ String sep (salt ++ String sep (kdf salt plaintext))).

(** Modelled from the spec: reading a digest back into the algorithm
    name, the salt and the digest body it describes itself with; [None]
    for a malformed digest. *)
Definition parse (digest : string) : option (string * string * string) :=
  match digest with
  | String a rest =>
      if Ascii.eqb a sep then
        match split_at sep rest with
        | Some (alg, rest') =>
            match split_at sep rest' with
            | Some (salt, body) => Some (alg, salt, body)
            | None => None
            end
        | None => None
        end
      else None
  | EmptyString => None
  end.

(** Modelled from the spec: "verify(plaintext, digest) -> bool
    recomputes and compares"; "verify returns false (never throws)
    for malformed digests". *)
Definition verify (plaintext digest : string) : bool :=
  match parse digest with
  | Some (alg, salt, body) =>
      String.eqb alg algorithm && String.eqb (kdf salt plaintext) body
  | None => false
  end.

End Hasher.

End PasswordHasher.

(** ** Token Issuer / Verifier *)

Module Tokens.

Inductive TokenError : Type := TokenInvalid.

Section Signer.

(** The signature function and the process-wide signing key. *)
Variable mac : string -> string -> Z -> string.
Variable key : string.

(** Modelled from the spec: "issue(user_identifier) -> token produces
    a signed token embedding the subject and an expiry timestamp set
    to a fixed TTL from issuance time". *)
Definition issue (ttl now : Z) (user_identifier : string) : Token :=
  Signed user_identifier (now + ttl) (mac key user_identifier (now + ttl)).

(** Modelled from the spec: "verify(token) -> subject | fails with
    TokenInvalid where TokenInvalid covers: malformed encoding,
    signature mismatch, and expiry in the past". *)
Definition verify (now : Z) (token : Token) : TokenError + string :=
  match token with
  | Garbled _ => inl TokenInvalid
  | Signed subject expiry signature =>
      if negb (String.eqb signature (mac key subject expiry)) then inl TokenInvalid
      else if (expiry <? now)%Z then inl TokenInvalid
      else inr subject
  end.

End Signer.

End Tokens.

(** ** Identity Resolver, Role Authorizer, login *)

Module Guard.

(** Modelled from the spec: the error taxonomy, "Unauthenticated",
    "Forbidden" and "InvalidCredentials". *)
Inductive AuthError : Type :=
| Unauthenticated
| Forbidden
| InvalidCredentials.

(** Modelled from the spec: the three failures "are surfaced to the route
    boundary as distinct HTTP-equivalent statuses (401, 403, 401
    respectively)". *)
Definition status_of (e : AuthError) : nat :=
  match e with
  | Unauthenticated => 401
  | Forbidden => 403
  | InvalidCredentials => 401
  end.

(** The resolved User record, or the anonymous sentinel. *)
Definition Identity : Type := option User.
Definition anonymous : Identity := None.

Inductive Variant : Type := Required | Optional.

(** What a guard hands to the framework: a value for the route, or a
    failure that short-circuits the request. *)
Definition Outcome (A : Type) : Type := (AuthError + A)%type.

(** The kind of route that failed, which decides how [Unauthenticated]
    is shown. *)
Inductive Surface : Type := Browser | Api.

(** Modelled from the spec: "Missing/invalid token on a Required route
    yields a redirect-to-login (in a browser-rendered context) or a
    401-equivalent (in an API context)"; "Forbidden yields a
    403-equivalent, never a redirect to login". *)
Definition respond (surface : Surface) (e : AuthError) : Response :=
  match e, surface with
  | Unauthenticated, Browser => RedirectResponse "/login" 302
  | _, _ => ErrorResponse (status_of e)
  end.

(** Modelled from the spec: "look up the User by identifier in the
    Credential Store". *)
Definition lookup (store : list User) (identifier : string) : option User :=
  find (fun u => String.eqb (username u) identifier) store.

Section Resolver.

Variable mac : string -> string -> Z -> string.
Variable key : string.

(** The failure path of steps 2 to 4. *)
Definition no_identity (v : Variant) : Outcome Identity :=
  match v with
  | Required => inl Unauthenticated
  | Optional => inr anonymous
  end.

(** Modelled from the spec: [app.dependencies] is not in [app.py];
    this is the five-step algorithm of the Identity Resolver, shared
    by its two variants. *)
Definition resolve (v : Variant) (store : list User) (now : Z) (request : Request)
  : Outcome Identity :=
  match credential request with
  | None => no_identity v
  | Some token =>
      match Tokens.verify mac key now token with
      | inl Tokens.TokenInvalid => no_identity v
      | inr subject =>
          match lookup store subject with
          | None => no_identity v
          | Some u => inr (Some u)
          end
      end
  end.

Definition get_current_user := resolve Required.
Definition get_optional_user := resolve Optional.

(** Modelled from the spec: the Role Authorizer "wraps the Required
    Identity Resolver; given a required role ..., re-checks the
    resolved User's role.  On mismatch, fails with Forbidden". *)
Definition require_role (required : UserRole) (store : list User) (now : Z)
           (request : Request) : Outcome User :=
  match get_current_user store now request with
  | inl e => inl e
  | inr None => inl Unauthenticated
  | inr (Some u) =>
      if UserRole_eqb (role u) required then inr u else inl Forbidden
  end.

(** Modelled from the spec: a guard is "executed before a route's main
    logic" and "may short-circuit the request with a failure".  This is
    how [Depends(get_db)] and [Depends(get_optional_user)] in the
    signature of a page route reach its body. *)
Definition serve (handler : Handler) (now : Z) (request : Request) : M Response :=
  get_db ;;
  fun w =>
    match get_optional_user (users w) now request with
    | inl e => (Ok (respond Browser e), w)
    | inr user => handler request user w
    end.

Section Login.

Variable kdf : string -> string -> string.
Variable algorithm : string.
Variable ttl : Z.

(** Modelled from the spec: Login "accepts credentials (identifier
    + plaintext password) ...; on success returns a session token
    ... plus user metadata; on failure returns an
    authentication-failure status ... with no distinction between
    unknown user and wrong password". *)
Definition login (store : list User) (now : Z) (identifier password : string)
  : Outcome (Token * User) :=
  match lookup store identifier with
  | None => inl InvalidCredentials
  | Some u =>
      if PasswordHasher.verify kdf algorithm password (hashed_password u)
      then inr (Tokens.issue mac key ttl now (username u), u)
      else inl InvalidCredentials
  end.

End Login.

End Resolver.

End Guard.

(** ** Observations on worlds and traces *)

(** Does the user table hold an account named "admin"? *)
Definition has_admin (us : list User) : bool :=
  existsb (fun u => String.eqb (username u) "admin") us.

(** The user rows written according to a trace, oldest first. *)
Fixpoint inserted_users (tr : list Event) : list User :=
  match tr with
  | [] => []
  | EvInsert (UserRow u) :: tr' => u :: inserted_users tr'
  | _ :: tr' => inserted_users tr'
  end.

(** The department rows written according to a trace, oldest first. *)
Fixpoint inserted_departments (tr : list Event) : list Department :=
  match tr with
  | [] => []
  | EvInsert (DepartmentRow d) :: tr' => d :: inserted_departments tr'
  | _ :: tr' => inserted_departments tr'
  end.

(** The fourteen rows of the seeding branch. *)
Definition seeded_departments : list Department :=
  map Department_of departments_data.

(** The events of one run of [startup_event], as a function of what the
    run found. *)
Definition startup_trace (get_password_hash : string -> string)
           (no_departments admin_found : bool) : list Event :=
  [EvCountDepartments]
  ++ (if no_departments
      then map EvInsert (map DepartmentRow seeded_departments)
           ++ [EvCommit; EvPrint "✅ Đã khởi tạo 14 khoa thành công"]
      else [])
  ++ [EvFirstUser "admin"]
  ++ (if admin_found then []
      else [EvInsert (UserRow (admin get_password_hash)); EvCommit;
            EvPrint "✅ Đã tạo tài khoản admin (username: admin, password: admin123)"])
  ++ [EvClose].

(** The rows a computation appended to the user table. *)
Definition created_users {A} (m : M A) (w : World) : list User :=
  skipn (length (users w)) (users (exec m w)).

(** The five routes that serve department pages or the root. *)
Definition guarded_paths : list string :=
  ["/"; "/materials"; "/detail"; "/dashboard"; "/statistics"].

(** Two process starts in a row, possibly with different salts. *)
Definition startup_twice (h1 h2 : string -> string) : M unit :=
  startup_event h1 ;; startup_event h2.

(** The four routes that list the departments, each with the template it
    renders. *)
Definition department_pages : list (string * string) :=
  [ ("/materials", "index.html");
    ("/detail", "detail.html");
    ("/dashboard", "dashboard.html");
    ("/statistics", "statistics.html") ].


(** Does a response render a template? *)
Definition renders (r : Response) : bool :=
  match r with
  | TemplateResponse _ _ => true
  | _ => false
  end.

(** Does a response carry a user or department rows in its context? *)
Definition carries_data (r : Response) : bool :=
  match r with
  | TemplateResponse _ context =>
      existsb (fun entry => match snd entry with
                            | CtxRequest _ => false
                            | CtxUser _ | CtxDepartments _ => true
                            end) context
  | _ => false
  end.

(** The only effects a page handler has: reading the departments and
    rendering a template. *)
Definition page_effect (e : Event) : bool :=
  match e with
  | EvAllDepartments | EvRender _ => true
  | _ => false
  end.

(** ** Sample data *)

Module Sample.

Definition kdf (salt plaintext : string) : string := plaintext ++ salt.
Definition mac (key subject : string) (expiry : Z) : string := key ++ subject.
Definition get_password_hash : string -> string :=
  PasswordHasher.hash kdf "demo" "c2FsdA".

Definition empty_world : World := mkWorld [] [] [] [].

Definition bob : User :=
  mkUser "bob" "bob@sqct.edu.vn" "Bob" (get_password_hash "hunter2") USER.

(** A store whose only account is not the administrator's. *)
Definition bob_world : World :=
  mkWorld seeded_departments [bob] [] [].

Definition bob_token : Token := Tokens.issue mac "k" 1800 1000 "bob".

(** A request by bob for the dashboard. *)
Definition bob_request : Request := mkRequest "/dashboard" (Some bob_token).

(** The administrator after a change of password, in a store that also
    holds bob. *)
Definition settled_admin : User :=
  mkUser "admin" "admin@sqct.edu.vn" "Root" (get_password_hash "s3cret!") ADMIN.

Definition settled_world : World :=
  mkWorld seeded_departments [settled_admin; bob] [] [].

End Sample.

(** ** Results on [startup_event] *)

Lemma find_none_existsb {A} (f : A -> bool) (l : list A) :
  find f l = None -> existsb f l = false.
Proof.
  induction l as [|a l IH]; simpl; [reflexivity|].
  destruct (f a); [discriminate | exact IH].
Qed.

Lemma truthy_find_existsb {A} (f : A -> bool) (l : list A) :
  truthy (find f l) = existsb f l.
Proof.
  induction l as [|a l IH]; simpl; [reflexivity|].
  destruct (f a); [reflexivity | exact IH].
Qed.

(** One run of [startup_event], in closed form: it always returns, the
    department table is seeded exactly when it was empty, the admin row is
    appended exactly when no row is named "admin". *)
Lemma startup_event_run (h : string -> string) (w : World) :
  startup_event h w =
  (Ok tt,
   mkWorld
     (if Nat.eqb (length (departments w)) 0 then seeded_departments else departments w)
     (if has_admin (users w) then users w else users w ++ [admin h])
     []
     (trace w ++ startup_trace h (Nat.eqb (length (departments w)) 0) (has_admin (users w)))).
Proof.
  destruct w as [ds us p tr].
  unfold has_admin. rewrite <- truthy_find_existsb.
  unfold startup_event, startup_trace, bind, get_db, count_departments,
    first_user_by_username, emit, print, db_close, ret; cbn [departments users pending trace fst snd].
  destruct ds as [|d ds].
  - cbn -[admin].
    destruct (find (fun u => String.eqb (username u) "admin") us) as [a|] eqn:Hf.
    + cbn -[admin]. rewrite <- !app_assoc. reflexivity.
    + cbn -[admin]. unfold db_add, db_commit; cbn -[admin].
      change (username (admin h)) with "admin".
      rewrite (find_none_existsb _ _ Hf). cbn -[admin].
      rewrite <- !app_assoc. reflexivity.
  - cbn -[admin].
    destruct (find (fun u => String.eqb (username u) "admin") us) as [a|] eqn:Hf.
    + cbn -[admin]. rewrite <- !app_assoc. reflexivity.
    + cbn -[admin]. unfold db_add, db_commit; cbn -[admin].
      change (username (admin h)) with "admin".
      rewrite (find_none_existsb _ _ Hf). cbn -[admin].
      rewrite <- !app_assoc. reflexivity.
Qed.

Lemma inserted_users_app (a b : list Event) :
  inserted_users (a ++ b) = inserted_users a ++ inserted_users b.
Proof.
  induction a as [|e a IH]; simpl; [reflexivity|].
  destruct e as [| | |r| | | |]; try exact IH.
  destruct r; simpl; [exact IH | now rewrite IH].
Qed.

Lemma inserted_departments_app (a b : list Event) :
  inserted_departments (a ++ b) = inserted_departments a ++ inserted_departments b.
Proof.
  induction a as [|e a IH]; simpl; [reflexivity|].
  destruct e as [| | |r| | | |]; try exact IH.
  destruct r; simpl; [now rewrite IH | exact IH].
Qed.

Lemma inserted_users_startup_trace h (b found : bool) :
  inserted_users (startup_trace h b found) = if found then [] else [admin h].
Proof. destruct b, found; reflexivity. Qed.

Lemma inserted_departments_startup_trace h (b found : bool) :
  inserted_departments (startup_trace h b found) = if b then seeded_departments else [].
Proof. destruct b, found; reflexivity. Qed.

(** C1 (as amended): startup creates the administrative account if and
    only if the user table holds no row named "admin".  The run always
    returns; when such a row exists the table is unchanged and no user row
    is written; otherwise exactly one row, the admin, is appended. *)
Theorem startup_creates_admin_iff_no_admin_row (h : string -> string) (w : World) :
  value (startup_event h) w = Ok tt /\
  users (exec (startup_event h) w)
    = (if has_admin (users w) then users w else users w ++ [admin h]) /\
  inserted_users (trace (exec (startup_event h) w))
    = inserted_users (trace w) ++ (if has_admin (users w) then [] else [admin h]).
Proof.
  unfold value, exec. rewrite startup_event_run. cbn [fst snd users trace].
  repeat split.
  rewrite inserted_users_app, inserted_users_startup_trace. reflexivity.
Qed.

(** C1 (as stated) fails: the store of [Sample.bob_world] has one user,
    bob, and startup still creates the admin account beside him. *)
Lemma startup_creates_admin_in_nonempty_store :
  users Sample.bob_world = [Sample.bob] /\
  users (exec (startup_event Sample.get_password_hash) Sample.bob_world)
    = [Sample.bob; admin Sample.get_password_hash] /\
  inserted_users (trace (exec (startup_event Sample.get_password_hash) Sample.bob_world))
    = [admin Sample.get_password_hash].
Proof. repeat split. Qed.

(** C2: two startups in a row on an empty user table both return and
    leave exactly one account named "admin", the one the first run made;
    the second run only counts the departments, looks the admin up and
    closes its session, writing nothing. *)
Theorem startup_twice_one_admin (h1 h2 : string -> string) (w : World) :
  users w = [] ->
  value (startup_twice h1 h2) w = Ok tt /\
  users (exec (startup_twice h1 h2) w) = [admin h1] /\
  length (filter (fun u => String.eqb (username u) "admin")
                 (users (exec (startup_twice h1 h2) w))) = 1 /\
  users (exec (startup_twice h1 h2) w) = users (exec (startup_event h1) w) /\
  departments (exec (startup_twice h1 h2) w) = departments (exec (startup_event h1) w) /\
  trace (exec (startup_twice h1 h2) w)
    = trace (exec (startup_event h1) w) ++ [EvCountDepartments; EvFirstUser "admin"; EvClose].
Proof.
  intros Hu.
  unfold value, exec, startup_twice, bind.
  rewrite (startup_event_run h1 w), startup_event_run.
  cbn [fst snd users departments trace]. rewrite Hu. cbn [has_admin existsb app].
  change (has_admin [admin h1]) with true. cbn iota.
  assert (Hd : Nat.eqb (length (if Nat.eqb (length (departments w)) 0
                                 then seeded_departments else departments w)) 0 = false).
  { destruct (departments w); reflexivity. }
  rewrite Hd. repeat split.
Qed.

Lemma startup_twice_one_admin_witness :
  users Sample.empty_world = [] /\
  users (exec (startup_twice Sample.get_password_hash Sample.get_password_hash)
              Sample.empty_world)
    = [admin Sample.get_password_hash].
Proof.
  split; [reflexivity|].
  exact (proj1 (proj2 (startup_twice_one_admin Sample.get_password_hash
                         Sample.get_password_hash Sample.empty_world eq_refl))).
Defined.

(** C4: departments are seeded exactly when the department table is
    empty.  On an empty table the fourteen rows K1 to K14, pairwise
    distinct, are written and committed (the run's events are those of
    [startup_trace]: the inserts, then the commit); on a non-empty table
    no department row is written and the table is unchanged. *)
Theorem startup_seeds_departments_iff_empty (h : string -> string) (w : World) :
  value (startup_event h) w = Ok tt /\
  departments (exec (startup_event h) w)
    = (if Nat.eqb (length (departments w)) 0 then seeded_departments else departments w) /\
  inserted_departments (trace (exec (startup_event h) w))
    = inserted_departments (trace w)
      ++ (if Nat.eqb (length (departments w)) 0 then seeded_departments else []) /\
  length seeded_departments = 14 /\
  map code seeded_departments
    = ["K1"; "K2"; "K3"; "K4"; "K5"; "K6"; "K7"; "K8"; "K9"; "K10"; "K11"; "K12";
       "K13"; "K14"] /\
  NoDup (map code seeded_departments) /\
  trace (exec (startup_event h) w)
    = trace w ++ startup_trace h (Nat.eqb (length (departments w)) 0) (has_admin (users w)).
Proof.
  unfold value, exec. rewrite startup_event_run. cbn [fst snd departments trace].
  split; [reflexivity|]. split; [reflexivity|].
  split; [rewrite inserted_departments_app, inserted_departments_startup_trace; reflexivity|].
  split; [reflexivity|]. split; [reflexivity|].
  change (map code seeded_departments) with
    ["K1"; "K2"; "K3"; "K4"; "K5"; "K6"; "K7"; "K8"; "K9"; "K10"; "K11"; "K12";
     "K13"; "K14"].
  split; [|reflexivity].
  repeat (constructor; [simpl; intuition discriminate|]).
  constructor.
Qed.

(** ** Results on the page routes *)

(** C3: on each of /, /materials, /detail, /dashboard and /statistics a
    request with no authenticated user is answered by a 302 redirect to
    /login, and the world is left as it was: the departments are not
    queried and no template is rendered. *)
Theorem anonymous_page_request_redirects_to_login
        (path : string) (request : Request) (w : World) :
  In path guarded_paths ->
  exists handler : Handler,
    route_for path routes = Some handler /\
    handler request None w = (Ok (RedirectResponse "/login" 302), w) /\
    trace (exec (handler request None) w) = trace w.
Proof.
  unfold guarded_paths. intros Hin.
  repeat (destruct Hin as [<- | Hin];
          [eexists; split; [reflexivity | split; reflexivity] |]).
  destruct Hin.
Qed.

Lemma anonymous_page_request_redirects_to_login_witness :
  exists handler : Handler,
    route_for "/dashboard" routes = Some handler /\
    handler (mkRequest "/dashboard" None) None Sample.bob_world
      = (Ok (RedirectResponse "/login" 302), Sample.bob_world) /\
    trace (exec (handler (mkRequest "/dashboard" None) None) Sample.bob_world)
      = trace Sample.bob_world.
Proof.
  apply (anonymous_page_request_redirects_to_login "/dashboard").
  unfold guarded_paths. simpl. tauto.
Defined.

(** C9: /login and /register answer an authenticated user with a 302
    redirect to /dashboard and render nothing; they answer an anonymous
    request by rendering their own page, never by a redirect. *)
Theorem login_register_redirect_only_when_authenticated
        (request : Request) (u : User) (w : World) :
  login_page request (Some u) w = (Ok (RedirectResponse "/dashboard" 302), w) /\
  register_page request (Some u) w = (Ok (RedirectResponse "/dashboard" 302), w) /\
  login_page request None w
    = (Ok (TemplateResponse "login.html" [("request", CtxRequest request)]),
       mkWorld (departments w) (users w) (pending w) (trace w ++ [EvRender "login.html"])) /\
  register_page request None w
    = (Ok (TemplateResponse "register.html" [("request", CtxRequest request)]),
       mkWorld (departments w) (users w) (pending w)
               (trace w ++ [EvRender "register.html"])).
Proof. repeat split. Qed.

(** C10: the root route answers every request with a 302 redirect: to
    /login for an anonymous request, to /dashboard for a resolved user;
    it touches neither the database nor the templates. *)
Theorem index_always_redirects (request : Request) (user : option User) (w : World) :
  index request user w
    = (Ok (RedirectResponse (match user with
                             | None => "/login"
                             | Some _ => "/dashboard"
                             end) 302), w).
Proof. destruct user; reflexivity. Qed.

(** ** Results on the modelled authentication core *)

Lemma split_at_app (c : ascii) (a b : string) :
  PasswordHasher.free_of c a = true ->
  PasswordHasher.split_at c (a ++ String c b) = Some (a, b).
Proof.
  induction a as [|x a IH]; simpl; intros H.
  - rewrite Ascii.eqb_refl. reflexivity.
  - apply andb_prop in H as [Hx Ha].
    apply negb_true_iff in Hx. rewrite Hx, (IH Ha). reflexivity.
Qed.

Lemma parse_hash (kdf : string -> string -> string) (algorithm salt plaintext : string) :
  PasswordHasher.free_of PasswordHasher.sep algorithm = true ->
  PasswordHasher.free_of PasswordHasher.sep salt = true ->
  PasswordHasher.parse (PasswordHasher.hash kdf algorithm salt plaintext)
    = Some (algorithm, salt, kdf salt plaintext).
Proof.
  intros Ha Hs. unfold PasswordHasher.parse, PasswordHasher.hash.
  rewrite Ascii.eqb_refl, (split_at_app _ _ _ Ha), (split_at_app _ _ _ Hs).
  reflexivity.
Qed.

Lemma verify_hash (kdf : string -> string -> string) (algorithm salt plaintext : string) :
  PasswordHasher.free_of PasswordHasher.sep algorithm = true ->
  PasswordHasher.free_of PasswordHasher.sep salt = true ->
  PasswordHasher.verify kdf algorithm plaintext
    (PasswordHasher.hash kdf algorithm salt plaintext) = true.
Proof.
  intros Ha Hs. unfold PasswordHasher.verify.
  rewrite (parse_hash _ _ _ _ Ha Hs), !String.eqb_refl. reflexivity.
Qed.

Lemma hash_not_admin123 (kdf : string -> string -> string) (algorithm salt : string) :
  PasswordHasher.hash kdf algorithm salt "admin123" <> "" /\
  PasswordHasher.hash kdf algorithm salt "admin123" <> "admin123".
Proof. split; discriminate. Qed.

Lemma lookup_app_admin (h : string -> string) (us : list User) :
  has_admin us = false -> Guard.lookup (us ++ [admin h]) "admin" = Some (admin h).
Proof.
  unfold has_admin, Guard.lookup. induction us as [|u us IH]; simpl; [reflexivity|].
  destruct (String.eqb (username u) "admin"); simpl; [discriminate | exact IH].
Qed.

(** C5: on a store with no account named "admin", startup leaves the
    account "admin" with role ADMIN whose stored hash is the digest of
    "admin123", which is not the text "admin123"; login with admin and
    admin123 then succeeds and returns a token for "admin". *)
Theorem bootstrap_admin_logs_in
        (kdf : string -> string -> string) (mac : string -> string -> Z -> string)
        (key algorithm salt : string) (ttl now : Z) (w : World) :
  has_admin (users w) = false ->
  PasswordHasher.free_of PasswordHasher.sep algorithm = true ->
  PasswordHasher.free_of PasswordHasher.sep salt = true ->
  exists a : User,
    Guard.lookup (users (exec (startup_event (PasswordHasher.hash kdf algorithm salt)) w))
                 "admin" = Some a /\
    username a = "admin" /\
    role a = ADMIN /\
    hashed_password a = PasswordHasher.hash kdf algorithm salt "admin123" /\
    hashed_password a <> "admin123" /\
    Guard.login mac key kdf algorithm ttl
      (users (exec (startup_event (PasswordHasher.hash kdf algorithm salt)) w))
      now "admin" "admin123"
    = inr (Tokens.issue mac key ttl now "admin", a).
Proof.
  intros Hno Ha Hs.
  exists (admin (PasswordHasher.hash kdf algorithm salt)).
  unfold exec. rewrite startup_event_run. cbn [snd users]. rewrite Hno.
  pose proof (lookup_app_admin (PasswordHasher.hash kdf algorithm salt) _ Hno) as Hl.
  split; [exact Hl|]. split; [reflexivity|]. split; [reflexivity|].
  split; [reflexivity|]. split; [apply hash_not_admin123|].
  unfold Guard.login. rewrite Hl.
  change (hashed_password (admin (PasswordHasher.hash kdf algorithm salt)))
    with (PasswordHasher.hash kdf algorithm salt "admin123").
  rewrite (verify_hash _ _ _ _ Ha Hs). reflexivity.
Qed.

Lemma bootstrap_admin_logs_in_witness :
  exists a : User,
    Guard.lookup (users (exec (startup_event Sample.get_password_hash) Sample.bob_world))
                 "admin" = Some a /\
    username a = "admin" /\
    role a = ADMIN /\
    hashed_password a = Sample.get_password_hash "admin123" /\
    hashed_password a <> "admin123" /\
    Guard.login Sample.mac "k" Sample.kdf "demo" 1800
      (users (exec (startup_event Sample.get_password_hash) Sample.bob_world))
      1000 "admin" "admin123"
    = inr (Tokens.issue Sample.mac "k" 1800 1000 "admin", a).
Proof.
  apply (bootstrap_admin_logs_in Sample.kdf Sample.mac "k" "demo" "c2FsdA" 1800 1000
           Sample.bob_world); reflexivity.
Defined.

Lemma created_users_startup (h : string -> string) (w : World) :
  created_users (startup_event h) w = if has_admin (users w) then [] else [admin h].
Proof.
  unfold created_users, exec. rewrite startup_event_run. cbn [snd users].
  destruct (has_admin (users w)).
  - apply skipn_all.
  - rewrite skipn_app, skipn_all, Nat.sub_diag. reflexivity.
Qed.

(** C6: every user row that startup creates carries the digest of
    "admin123" as its password hash, and that digest is neither empty nor
    the text "admin123". *)
Theorem created_user_hash_is_not_plaintext
        (kdf : string -> string -> string) (algorithm salt : string)
        (w : World) (u : User) :
  In u (created_users (startup_event (PasswordHasher.hash kdf algorithm salt)) w) ->
  hashed_password u = PasswordHasher.hash kdf algorithm salt "admin123" /\
  hashed_password u <> "" /\
  hashed_password u <> "admin123".
Proof.
  rewrite created_users_startup.
  destruct (has_admin (users w)); simpl; [intros [] | intros [<- | []]].
  split; [reflexivity | apply hash_not_admin123].
Qed.

Lemma created_user_hash_is_not_plaintext_witness :
  hashed_password (admin Sample.get_password_hash) = Sample.get_password_hash "admin123" /\
  hashed_password (admin Sample.get_password_hash) <> "" /\
  hashed_password (admin Sample.get_password_hash) <> "admin123".
Proof.
  apply (created_user_hash_is_not_plaintext Sample.kdf "demo" "c2FsdA" Sample.empty_world
           (admin Sample.get_password_hash)).
  vm_compute. left. reflexivity.
Defined.

(** The Optional resolver returns an identity on every request. *)
Lemma get_optional_user_never_fails
      (mac : string -> string -> Z -> string) (key : string)
      (store : list User) (now : Z) (request : Request) :
  exists identity : Guard.Identity,
    Guard.get_optional_user mac key store now request = inr identity.
Proof.
  unfold Guard.get_optional_user, Guard.resolve.
  destruct (credential request) as [token|]; [|eexists; reflexivity].
  destruct (Tokens.verify mac key now token) as [[]|subject]; [eexists; reflexivity|].
  destruct (Guard.lookup store subject); eexists; reflexivity.
Qed.

(** C7: for a request with no token, or with a token the verifier
    rejects, the Optional resolver does not fail and yields anonymous, and
    the route behind it ([login_page]) runs with that value and renders
    its page. *)
Theorem optional_resolver_yields_anonymous
        (mac : string -> string -> Z -> string) (key : string)
        (now : Z) (request : Request) (w : World) :
  credential request = None \/
  (exists token, credential request = Some token /\
                 Tokens.verify mac key now token = inl Tokens.TokenInvalid) ->
  Guard.get_optional_user mac key (users w) now request = inr Guard.anonymous /\
  Guard.serve mac key login_page now request w
    = (Ok (TemplateResponse "login.html" [("request", CtxRequest request)]),
       mkWorld (departments w) (users w) [] (trace w ++ [EvRender "login.html"])).
Proof.
  intros H.
  assert (Hopt : forall store,
             Guard.get_optional_user mac key store now request = inr Guard.anonymous).
  { intros store. unfold Guard.get_optional_user, Guard.resolve.
    destruct H as [-> | (token & -> & ->)]; reflexivity. }
  split; [apply Hopt|].
  unfold Guard.serve, bind, get_db. cbn [users]. rewrite Hopt. reflexivity.
Qed.

Lemma optional_resolver_yields_anonymous_witness :
  Guard.get_optional_user Sample.mac "k" (users Sample.bob_world) 5000
    (mkRequest "/login" (Some Sample.bob_token)) = inr Guard.anonymous /\
  Guard.serve Sample.mac "k" login_page 5000
    (mkRequest "/login" (Some Sample.bob_token)) Sample.bob_world
    = (Ok (TemplateResponse "login.html"
             [("request", CtxRequest (mkRequest "/login" (Some Sample.bob_token)))]),
       mkWorld (departments Sample.bob_world) (users Sample.bob_world) []
               (trace Sample.bob_world ++ [EvRender "login.html"])).
Proof.
  apply (optional_resolver_yields_anonymous Sample.mac "k" 5000
           (mkRequest "/login" (Some Sample.bob_token)) Sample.bob_world).
  right. exists Sample.bob_token. split; reflexivity.
Defined.

(** C8: when the Required resolver yields a user whose role is not the
    required one, the Role Authorizer fails with Forbidden; Forbidden is
    not Unauthenticated, its status is 403 where Unauthenticated has 401,
    and its response on either kind of route is the 403 error, not a
    redirect. *)
Theorem role_mismatch_is_forbidden
        (mac : string -> string -> Z -> string) (key : string)
        (required : UserRole) (store : list User) (now : Z)
        (request : Request) (u : User) (surface : Guard.Surface) :
  Guard.get_current_user mac key store now request = inr (Some u) ->
  role u <> required ->
  Guard.require_role mac key required store now request = inl Guard.Forbidden /\
  Guard.Forbidden <> Guard.Unauthenticated /\
  Guard.status_of Guard.Forbidden = 403 /\
  Guard.status_of Guard.Unauthenticated = 401 /\
  Guard.respond surface Guard.Forbidden = ErrorResponse 403 /\
  (forall url status, Guard.respond surface Guard.Forbidden <> RedirectResponse url status).
Proof.
  intros Hu Hr. unfold Guard.require_role. rewrite Hu.
  assert (Hne : UserRole_eqb (role u) required = false).
  { destruct (role u), required; try reflexivity; contradiction Hr; reflexivity. }
  rewrite Hne.
  split; [reflexivity|]. split; [discriminate|]. split; [reflexivity|].
  split; [reflexivity|]. split; [destruct surface; reflexivity|].
  intros url status. destruct surface; discriminate.
Qed.

Lemma role_mismatch_is_forbidden_witness :
  Guard.require_role Sample.mac "k" ADMIN (users Sample.bob_world) 1500
    (mkRequest "/api/users" (Some Sample.bob_token)) = inl Guard.Forbidden /\
  Guard.respond Guard.Browser Guard.Forbidden = ErrorResponse 403.
Proof.
  pose proof (role_mismatch_is_forbidden Sample.mac "k" ADMIN (users Sample.bob_world) 1500
                (mkRequest "/api/users" (Some Sample.bob_token)) Sample.bob Guard.Browser
                eq_refl) as H.
  assert (Hr : role Sample.bob <> ADMIN) by discriminate.
  destruct (H Hr) as (H1 & _ & _ & _ & H5 & _).
  split; [exact H1 | exact H5].
Defined.

(** ** Further results on the page routes *)

(** The routing table, read backwards: a handler found for a path is the
    one its decorator registered. *)
Lemma route_for_inv (path : string) (handler : Handler) :
  route_for path routes = Some handler ->
  (path = "/" /\ handler = index) \/
  (path = "/materials" /\ handler = materials_page) \/
  (path = "/login" /\ handler = login_page) \/
  (path = "/register" /\ handler = register_page) \/
  (path = "/detail" /\ handler = detail_page) \/
  (path = "/dashboard" /\ handler = dashboard_page) \/
  (path = "/statistics" /\ handler = statistics_page).
Proof.
  unfold routes, route_for.
  repeat match goal with
         | |- context [String.eqb ?p path] =>
             destruct (String.eqb_spec p path) as [<- | _];
             [intros [= <-]; tauto |]
         end.
  discriminate.
Qed.

Ltac each_route H :=
  apply route_for_inv in H;
  repeat (destruct H as [[-> ->] | H]); [.. | destruct H as [-> ->]].

(** X1: on /materials, /detail, /dashboard and /statistics a request with
    a resolved user reads the department table once and renders the
    route's own template with the request, that user and all department
    rows in table order; it writes nothing. *)
Theorem department_page_renders_for_user
        (path template : string) (request : Request) (u : User) (w : World) :
  In (path, template) department_pages ->
  exists handler : Handler,
    route_for path routes = Some handler /\
    handler request (Some u) w
      = (Ok (TemplateResponse template
               [ ("request", CtxRequest request);
                 ("user", CtxUser (Some u));
                 ("departments", CtxDepartments (departments w)) ]),
         mkWorld (departments w) (users w) (pending w)
                 (trace w ++ [EvAllDepartments; EvRender template])).
Proof.
  unfold department_pages. intros Hin.
  repeat (destruct Hin as [[= <- <-] | Hin];
          [eexists; split; [reflexivity|];
           cbv [materials_page detail_page dashboard_page statistics_page truthy negb
                bind all_departments template_response emit ret
                departments users pending trace];
           rewrite <- app_assoc; reflexivity |]).
  destruct Hin.
Qed.

Lemma department_page_renders_for_user_witness :
  exists handler : Handler,
    route_for "/materials" routes = Some handler /\
    handler Sample.bob_request (Some Sample.bob) Sample.bob_world
      = (Ok (TemplateResponse "index.html"
               [ ("request", CtxRequest Sample.bob_request);
                 ("user", CtxUser (Some Sample.bob));
                 ("departments", CtxDepartments (departments Sample.bob_world)) ]),
         mkWorld (departments Sample.bob_world) (users Sample.bob_world)
                 (pending Sample.bob_world)
                 (trace Sample.bob_world ++ [EvAllDepartments; EvRender "index.html"])).
Proof.
  apply (department_page_renders_for_user "/materials" "index.html").
  unfold department_pages. simpl. tauto.
Defined.

Ltac run_handler :=
  cbv [index materials_page login_page register_page detail_page dashboard_page
       statistics_page truthy negb bind all_departments template_response emit ret
       departments users pending trace value exec fst snd].

(** X2: no page route raises or writes: whatever the path, the request
    and the identity, the handler returns a response, leaves both tables
    and the pending rows as they were, and adds to the trace nothing but
    department reads and template renders. *)
Theorem page_routes_are_read_only
        (path : string) (handler : Handler) (request : Request)
        (user : option User) (w : World) :
  route_for path routes = Some handler ->
  exists (response : Response) (effects : list Event),
    handler request user w
      = (Ok response,
         mkWorld (departments w) (users w) (pending w) (trace w ++ effects)) /\
    forallb page_effect effects = true.
Proof.
  intros H. destruct w as [ds us p tr].
  each_route H; destruct user as [u|]; run_handler;
    first [ exists (RedirectResponse "/login" 302), [];
            rewrite app_nil_r; split; reflexivity
          | exists (RedirectResponse "/dashboard" 302), [];
            rewrite app_nil_r; split; reflexivity
          | eexists; eexists; rewrite <- ?app_assoc; split; reflexivity ].
Qed.

Lemma page_routes_are_read_only_witness :
  exists (response : Response) (effects : list Event),
    dashboard_page Sample.bob_request (Some Sample.bob) Sample.bob_world
      = (Ok response,
         mkWorld (departments Sample.bob_world) (users Sample.bob_world)
                 (pending Sample.bob_world) (trace Sample.bob_world ++ effects)) /\
    forallb page_effect effects = true.
Proof.
  apply (page_routes_are_read_only "/dashboard" dashboard_page). reflexivity.
Defined.

(** X3: redirects do not chain.  When a page route answers with a
    redirect, the status is 302 and the target is itself a registered
    route which, for the same identity, renders a template. *)
Theorem redirect_lands_on_rendering_route
        (path : string) (handler : Handler) (request : Request)
        (user : option User) (w : World) (url : string) (status : nat) :
  route_for path routes = Some handler ->
  value (handler request user) w = Ok (RedirectResponse url status) ->
  status = 302 /\
  exists target : Handler,
    route_for url routes = Some target /\
    forall (request' : Request) (w' : World),
      exists response, value (target request' user) w' = Ok response /\
                       renders response = true.
Proof.
  intros H Hv.
  each_route H; destruct user as [u|]; revert Hv; run_handler;
    intros [= <- <-];
    (split; [reflexivity|]);
    first [ exists login_page; split; [reflexivity|];
            intros request' w'; eexists; split; reflexivity
          | exists dashboard_page; split; [reflexivity|];
            intros request' w'; eexists; split; reflexivity ].
Qed.

Lemma redirect_lands_on_rendering_route_witness :
  302 = 302 /\
  exists target : Handler,
    route_for "/login" routes = Some target /\
    forall (request' : Request) (w' : World),
      exists response, value (target request' None) w' = Ok response /\
                       renders response = true.
Proof.
  apply (redirect_lands_on_rendering_route "/" index (mkRequest "/" None) None
           Sample.empty_world "/login" 302); reflexivity.
Defined.

(** X4: a guest never sees data.  On every page route an anonymous
    request gets a response with no user and no department rows in it,
    the database is not read, and a template is rendered only on /login
    and /register. *)
Theorem anonymous_request_gets_no_data
        (path : string) (handler : Handler) (request : Request) (w : World) :
  route_for path routes = Some handler ->
  exists (response : Response) (effects : list Event),
    handler request None w
      = (Ok response,
         mkWorld (departments w) (users w) (pending w) (trace w ++ effects)) /\
    carries_data response = false /\
    ~ In EvAllDepartments effects /\
    (renders response = true -> path = "/login" \/ path = "/register").
Proof.
  intros H. destruct w as [ds us p tr].
  each_route H; run_handler;
    first [ exists (RedirectResponse "/login" 302), [];
            rewrite app_nil_r;
            split; [reflexivity|]; split; [reflexivity|];
            split; [intros []|]; discriminate
          | eexists; eexists;
            split; [reflexivity|]; split; [reflexivity|];
            split; [simpl; intros [Hq|[]]; discriminate Hq|]; tauto ].
Qed.

Lemma anonymous_request_gets_no_data_witness :
  exists (response : Response) (effects : list Event),
    register_page (mkRequest "/register" None) None Sample.bob_world
      = (Ok response,
         mkWorld (departments Sample.bob_world) (users Sample.bob_world)
                 (pending Sample.bob_world) (trace Sample.bob_world ++ effects)) /\
    carries_data response = false /\
    ~ In EvAllDepartments effects /\
    (renders response = true -> "/register" = "/login" \/ "/register" = "/register").
Proof.
  apply (anonymous_request_gets_no_data "/register" register_page). reflexivity.
Defined.

(** X5: a signed-in user is never sent to the login page and never shown
    the login or register form: on every page route the response is a
    redirect to /dashboard or one of the four department templates
    rendered with that user. *)
Theorem authenticated_request_never_sees_login
        (path : string) (handler : Handler) (request : Request)
        (u : User) (w : World) :
  route_for path routes = Some handler ->
  exists response : Response,
    value (handler request (Some u)) w = Ok response /\
    (response = RedirectResponse "/dashboard" 302 \/
     exists template,
       In (path, template) department_pages /\
       response = TemplateResponse template
                    [ ("request", CtxRequest request);
                      ("user", CtxUser (Some u));
                      ("departments", CtxDepartments (departments w)) ]).
Proof.
  intros H.
  each_route H; run_handler; eexists; (split; [reflexivity|]);
    first [ left; reflexivity
          | right; eexists; split; [|reflexivity]; unfold department_pages; simpl; tauto ].
Qed.

Lemma authenticated_request_never_sees_login_witness :
  exists response : Response,
    value (login_page Sample.bob_request (Some Sample.bob)) Sample.bob_world = Ok response /\
    (response = RedirectResponse "/dashboard" 302 \/
     exists template,
       In ("/login", template) department_pages /\
       response = TemplateResponse template
                    [ ("request", CtxRequest Sample.bob_request);
                      ("user", CtxUser (Some Sample.bob));
                      ("departments", CtxDepartments (departments Sample.bob_world)) ]).
Proof.
  apply (authenticated_request_never_sees_login "/login" login_page). reflexivity.
Defined.


(** ** Further results on [startup_event] *)

Lemma has_admin_after (h : string -> string) (us : list User) :
  has_admin (if has_admin us then us else us ++ [admin h]) = true.
Proof.
  destruct (has_admin us) eqn:E; [exact E|].
  unfold has_admin. rewrite existsb_app. simpl. apply orb_true_r.
Qed.

Lemma departments_after_nonempty (ds : list Department) :
  Nat.eqb (length (if Nat.eqb (length ds) 0 then seeded_departments else ds)) 0 = false.
Proof. destruct ds; reflexivity. Qed.

(** X7: startup is idempotent on every store, not only the empty one: a
    second run returns, leaves both tables exactly as the first run left
    them, and its whole trace is one count, one lookup and the close. *)
Theorem startup_is_idempotent (h1 h2 : string -> string) (w : World) :
  value (startup_twice h1 h2) w = Ok tt /\
  departments (exec (startup_twice h1 h2) w) = departments (exec (startup_event h1) w) /\
  users (exec (startup_twice h1 h2) w) = users (exec (startup_event h1) w) /\
  trace (exec (startup_twice h1 h2) w)
    = trace (exec (startup_event h1) w) ++ [EvCountDepartments; EvFirstUser "admin"; EvClose].
Proof.
  unfold value, exec, startup_twice, bind.
  rewrite (startup_event_run h1 w), startup_event_run.
  cbn [fst snd users departments trace].
  rewrite has_admin_after, departments_after_nonempty.
  repeat split.
Qed.

(** X8: whatever the store held, after startup the department table is
    not empty, the lookup of "admin" finds an account, and the session
    has nothing pending. *)
Theorem startup_establishes_seed_data (h : string -> string) (w : World) :
  departments (exec (startup_event h) w) <> [] /\
  (exists a, find (fun u => String.eqb (username u) "admin")
                  (users (exec (startup_event h) w)) = Some a /\
             username a = "admin") /\
  pending (exec (startup_event h) w) = [].
Proof.
  unfold exec. rewrite startup_event_run. cbn [snd users departments pending].
  split; [|split; [|reflexivity]].
  - pose proof (departments_after_nonempty (departments w)) as Hd.
    intros E. rewrite E in Hd. discriminate Hd.
  - pose proof (has_admin_after h (users w)) as Ha. unfold has_admin in Ha.
    rewrite <- truthy_find_existsb in Ha.
    destruct (find _ _) as [a|] eqn:Hf; [|discriminate Ha].
    exists a. split; [reflexivity|].
    apply find_some in Hf. apply String.eqb_eq, Hf.
Qed.

(** X9: startup only appends.  Every row present before is still there,
    at the same position and unchanged; at most one user row is added,
    and the department rows added are none or the fourteen seeds. *)
Theorem startup_only_appends (h : string -> string) (w : World) :
  exists (new_departments : list Department) (new_users : list User),
    departments (exec (startup_event h) w) = departments w ++ new_departments /\
    users (exec (startup_event h) w) = users w ++ new_users /\
    (new_departments = [] \/ new_departments = seeded_departments) /\
    (new_users = [] \/ new_users = [admin h]).
Proof.
  unfold exec. rewrite startup_event_run. cbn [snd users departments].
  exists (if Nat.eqb (length (departments w)) 0 then seeded_departments else []),
         (if has_admin (users w) then [] else [admin h]).
  destruct (departments w) as [|d ds]; destruct (has_admin (users w));
    cbn [length Nat.eqb]; rewrite ?app_nil_r; repeat split; tauto.
Qed.

Lemma has_admin_false_not_in (us : list User) :
  has_admin us = false -> ~ In "admin" (map username us).
Proof.
  unfold has_admin. induction us as [|u us IH]; simpl; [tauto|].
  intros H. apply orb_false_elim in H as [Hu Hus].
  intros [E | Hin]; [|exact (IH Hus Hin)].
  rewrite E in Hu. discriminate Hu.
Qed.

Lemma seeded_codes_distinct : NoDup (map code seeded_departments).
Proof.
  unfold seeded_departments, departments_data. simpl.
  repeat (constructor; [simpl; intuition discriminate|]).
  constructor.
Qed.

(** X10: startup keeps the keys unique: if no two users shared a username
    and no two departments a code before, none do after. *)
Theorem startup_keeps_keys_unique (h : string -> string) (w : World) :
  NoDup (map username (users w)) ->
  NoDup (map code (departments w)) ->
  NoDup (map username (users (exec (startup_event h) w))) /\
  NoDup (map code (departments (exec (startup_event h) w))).
Proof.
  intros Hu Hd. unfold exec. rewrite startup_event_run. cbn [snd users departments].
  split.
  - destruct (has_admin (users w)) eqn:E; [exact Hu|].
    rewrite map_app. simpl.
    apply NoDup_app; [exact Hu | repeat constructor; tauto |].
    intros x Hx [<- | []]. exact (has_admin_false_not_in _ E Hx).
  - destruct (Nat.eqb (length (departments w)) 0); [apply seeded_codes_distinct | exact Hd].
Qed.

Lemma startup_keeps_keys_unique_witness :
  NoDup (map username (users (exec (startup_event Sample.get_password_hash)
                                   Sample.bob_world))) /\
  NoDup (map code (departments (exec (startup_event Sample.get_password_hash)
                                     Sample.bob_world))).
Proof.
  apply (startup_keeps_keys_unique Sample.get_password_hash Sample.bob_world).
  - simpl. repeat constructor. simpl. tauto.
  - apply seeded_codes_distinct.
Defined.

(** X11: a restart never resets the administrator.  If an account named
    "admin" exists, with whatever password hash, role and profile, the
    lookup after startup returns that same record, and every other user
    row is as it was. *)
Theorem startup_keeps_existing_admin (h : string -> string) (w : World) (a : User) :
  find (fun u => String.eqb (username u) "admin") (users w) = Some a ->
  value (get_db ;; first_user_by_username "admin") (exec (startup_event h) w) = Ok (Some a) /\
  users (exec (startup_event h) w) = users w /\
  inserted_users (trace (exec (startup_event h) w)) = inserted_users (trace w).
Proof.
  intros Hf.
  assert (Ha : has_admin (users w) = true).
  { unfold has_admin. rewrite <- truthy_find_existsb, Hf. reflexivity. }
  unfold value, exec. rewrite startup_event_run. cbn [snd users trace]. rewrite Ha.
  split; [|split; [reflexivity|]].
  - unfold first_user_by_username, bind, get_db, emit. cbn [fst snd users].
    rewrite Hf. reflexivity.
  - rewrite inserted_users_app, inserted_users_startup_trace, app_nil_r. reflexivity.
Qed.

Lemma startup_keeps_existing_admin_witness :
  value (get_db ;; first_user_by_username "admin")
        (exec (startup_event Sample.get_password_hash) Sample.settled_world)
    = Ok (Some Sample.settled_admin) /\
  users (exec (startup_event Sample.get_password_hash) Sample.settled_world)
    = users Sample.settled_world /\
  inserted_users (trace (exec (startup_event Sample.get_password_hash) Sample.settled_world))
    = inserted_users (trace Sample.settled_world).
Proof.
  apply (startup_keeps_existing_admin Sample.get_password_hash Sample.settled_world
           Sample.settled_admin).
  reflexivity.
Defined.

Lemma department_page_run (path template : string) :
  In (path, template) department_pages ->
  exists handler : Handler,
    route_for path routes = Some handler /\
    forall (request : Request) (u : User) (w : World),
      value (handler request (Some u)) w
        = Ok (TemplateResponse template
                [ ("request", CtxRequest request);
                  ("user", CtxUser (Some u));
                  ("departments", CtxDepartments (departments w)) ]).
Proof.
  unfold department_pages. intros Hin.
  repeat (destruct Hin as [[= <- <-] | Hin];
          [eexists; split; [reflexivity|]; intros; reflexivity |]).
  destruct Hin.
Qed.

(** X12: startup and the department pages compose.  Once startup has
    run, each department page shows a signed-in user a non-empty list of
    departments: the fourteen seeds on a database that had none, and the
    rows that were already there otherwise. *)
Theorem department_page_after_startup
        (h : string -> string) (w : World)
        (path template : string) (request : Request) (u : User) :
  In (path, template) department_pages ->
  exists (handler : Handler) (listed : list Department),
    route_for path routes = Some handler /\
    value (handler request (Some u)) (exec (startup_event h) w)
      = Ok (TemplateResponse template
              [ ("request", CtxRequest request);
                ("user", CtxUser (Some u));
                ("departments", CtxDepartments listed) ]) /\
    listed <> [] /\
    listed = (if Nat.eqb (length (departments w)) 0
              then seeded_departments else departments w).
Proof.
  intros Hin. destruct (department_page_run _ _ Hin) as (handler & Hr & Hrun).
  exists handler, (departments (exec (startup_event h) w)).
  split; [exact Hr|]. split; [apply Hrun|].
  unfold exec. rewrite startup_event_run. cbn [snd departments].
  split; [|reflexivity].
  pose proof (departments_after_nonempty (departments w)) as Hd.
  intros E. rewrite E in Hd. discriminate Hd.
Qed.

Lemma department_page_after_startup_witness :
  exists (handler : Handler) (listed : list Department),
    route_for "/statistics" routes = Some handler /\
    value (handler Sample.bob_request (Some Sample.bob))
          (exec (startup_event Sample.get_password_hash) Sample.empty_world)
      = Ok (TemplateResponse "statistics.html"
              [ ("request", CtxRequest Sample.bob_request);
                ("user", CtxUser (Some Sample.bob));
                ("departments", CtxDepartments listed) ]) /\
    listed <> [] /\
    listed = (if Nat.eqb (length (departments Sample.empty_world)) 0
              then seeded_departments else departments Sample.empty_world).
Proof.
  apply (department_page_after_startup Sample.get_password_hash Sample.empty_world
           "/statistics" "statistics.html").
  unfold department_pages. simpl. tauto.
Defined.
